(** * Pebble-flux plotting helpers (plots/plotting.py)

    A shallow embedding of the four functions of [plots/plotting.py]
    ([read_flux], [read_surfacedensity], [plot_inwardflux],
    [plot_accretion]) together with the fragment of numpy, pandas and
    matplotlib they call, followed by the properties of the
    specification that can be settled on it.

    Conventions of the model:
    - a float is a rational number in canonical form ([Qc]): arithmetic
      is exact, equality is numeric equality, and the non-finite values
      (nan, inf) are not represented;
    - Python objects that are shared and mutated (figures, axes, data
      frames) live in a store and are passed around as handles;
    - a call is a state transformer that ends in a value, in a raised
      exception, or outside the modelled fragment of the libraries. *)

From Stdlib Require Import QArith Qcanon Qcabs.
From Stdlib Require Import String Ascii Sorted Lqa Qabs.
From stdpp Require Import base tactics numbers option list.

(** ** Outcomes of a call *)

(** The exception classes raised by the modelled code.  The module
    defines no exception class of its own: every failure is the one of
    the interpreter or of the library primitive that failed. *)
Inductive exn : Set :=
  | ValueError
  | IOError
  | IndexError
  | AttributeError
  | UnboundLocalError.

Inductive result (A : Type) : Type :=
  | Ok (a : A)
  | Raise (e : exn)
  | Beyond.
Arguments Ok {A} a.
Arguments Raise {A} e.
Arguments Beyond {A}.

(** [Beyond] marks an input outside the fragment of the libraries that
    is modelled (non-finite numbers, non-numeric data cells, ragged or
    quoted rows).  No theorem concludes anything from it. *)

Definition is_ok {A} (r : result A) : bool :=
  match r with Ok _ => true | _ => false end.

Definition rbind {A B} (r : result A) (k : A → result B) : result B :=
  match r with
  | Ok a => k a
  | Raise e => Raise e
  | Beyond => Beyond
  end.

Fixpoint rmap {A B} (f : A → result B) (l : list A) : result (list B) :=
  match l with
  | [] => Ok []
  | x :: l' => rbind (f x) (λ y, rbind (rmap f l') (λ ys, Ok (y :: ys)))
  end.

(** ** numpy on one-dimensional arrays *)

Module np.

(** [a - s] for an array [a] and a scalar [s]. *)
Definition sub_scalar (a : list Qc) (s : Qc) : list Qc :=
  map (λ x, (x - s)%Qc) a.

(** [abs(a)]. *)
Definition abs (a : list Qc) : list Qc := map Qcabs a.

(** The scan of [argmin]: [best] is the least value met so far and
    [besti] its position; a later element replaces it only when it is
    strictly smaller, so the first occurrence of the minimum wins. *)
Fixpoint argmin_scan (best : Qc) (besti i : nat) (a : list Qc) : nat :=
  match a with
  | [] => besti
  | x :: a' =>
      match Qccompare x best with
      | Lt => argmin_scan x i (S i) a'
      | _ => argmin_scan best besti (S i) a'
      end
  end.

(** [np.argmin(a)]: raises ValueError on an empty array. *)
Definition argmin (a : list Qc) : result nat :=
  match a with
  | [] => Raise ValueError
  | x :: a' => Ok (argmin_scan x 0 1 a')
  end.

(** [a[i]] for an index produced by [argmin]. *)
Definition getitem (a : list Qc) (i : nat) : result Qc :=
  match a !! i with
  | Some x => Ok x
  | None => Raise IndexError
  end.

(** [a[1::]] and [a[0:-1]]. *)
Definition slice_from1 (a : list Qc) : list Qc := drop 1 a.
Definition slice_to_last (a : list Qc) : list Qc :=
  take (length a - 1) a.

(** [a - b] for two arrays: elementwise on equal lengths, an array of
    length one is broadcast, any other pair of shapes raises
    ValueError. *)
Definition sub (a b : list Qc) : result (list Qc) :=
  if decide (length a = length b) then
    Ok (zip_with Qcminus a b)
  else
    match a, b with
    | [x], _ => Ok (map (λ y, (x - y)%Qc) b)
    | _, [y] => Ok (map (λ x, (x - y)%Qc) a)
    | _, _ => Raise ValueError
    end.

(** [np.hstack((a, b))]. *)
Definition hstack (a b : list Qc) : list Qc := a ++ b.

End np.

(** ** Python's [float] on text *)

Module pyfloat.

Definition is_space (c : ascii) : bool :=
  let n := nat_of_ascii c in
  Nat.eqb n 32 || (Nat.leb 9 n && Nat.leb n 13).

Definition digit (c : ascii) : option Z :=
  let n := nat_of_ascii c in
  if Nat.leb 48 n && Nat.leb n 57 then Some (Z.of_nat (n - 48)) else None.

(** The value of a run of decimal digits, continuing from [acc];
    [None] when a character is not a digit. *)
Fixpoint digits (acc : Z) (cs : list ascii) : option Z :=
  match cs with
  | [] => Some acc
  | c :: cs' =>
      match digit c with
      | Some d => digits (10 * acc + d)%Z cs'
      | None => None
      end
  end.

(** Splits at the first character satisfying [p]. *)
Fixpoint break (p : ascii → bool) (cs : list ascii)
  : list ascii * option (list ascii) :=
  match cs with
  | [] => ([], None)
  | c :: cs' =>
      if p c then ([], Some cs')
      else let '(a, b) := break p cs' in (c :: a, b)
  end.

Definition signed (cs : list ascii) : bool * list ascii :=
  match cs with
  | c :: cs' =>
      if Ascii.eqb c "-" then (true, cs')
      else if Ascii.eqb c "+" then (false, cs')
      else (false, cs)
  | [] => (false, [])
  end.

Definition is_e (c : ascii) : bool :=
  Ascii.eqb c "e" || Ascii.eqb c "E".
Definition is_dot (c : ascii) : bool := Ascii.eqb c ".".

(** [m * 10^e] as a canonical rational. *)
Definition scale10 (m e : Z) : Qc :=
  if Z.leb 0 e then Q2Qc (inject_Z (m * 10 ^ e))
  else Q2Qc (Qmake m (Z.to_pos (10 ^ (- e)))).

(** A decimal literal: sign, digits with at most one point and at
    least one digit, and an optional exponent. *)
Definition decimal (cs : list ascii) : option Qc :=
  let '(neg, body) := signed cs in
  let '(mant, ex) := break is_e body in
  let '(ip, fp) := break is_dot mant in
  let fp := default [] fp in
  match ip ++ fp with
  | [] => None
  | _ :: _ =>
      m ← digits 0 (ip ++ fp);
      e ← match ex with
          | None => Some 0%Z
          | Some ecs =>
              let '(eneg, ed) := signed ecs in
              match ed with
              | [] => None
              | _ :: _ =>
                  v ← digits 0 ed; Some (if eneg then (- v)%Z else v)
              end
          end;
      Some (scale10 (if neg then (- m)%Z else m)
                    (e - Z.of_nat (length fp)))
  end.

Definition lower (c : ascii) : ascii :=
  let n := nat_of_ascii c in
  if Nat.leb 65 n && Nat.leb n 90 then ascii_of_nat (n + 32) else c.

(** The spellings of the non-finite floats, which the rational model
    does not represent. *)
Definition non_finite (cs : list ascii) : bool :=
  let name := string_of_list_ascii (map lower (snd (signed cs))) in
  String.eqb name "inf" || String.eqb name "infinity"
  || String.eqb name "nan".

Fixpoint lstrip (cs : list ascii) : list ascii :=
  match cs with
  | c :: cs' => if is_space c then lstrip cs' else cs
  | [] => []
  end.

Definition strip (cs : list ascii) : list ascii :=
  reverse (lstrip (reverse (lstrip cs))).

(** [float(s)] for a [str]: surrounding white space is ignored; text
    that is not a number raises ValueError. *)
Definition of_string (s : string) : result Qc :=
  let cs := strip (list_ascii_of_string s) in
  match decimal cs with
  | Some q => Ok q
  | None => if non_finite cs then Beyond else Raise ValueError
  end.

End pyfloat.

(** ** pandas: data frames and the delimited-text reader *)

Module pd.

(** A column label is a Python object; the renderers pass it to
    [float], which accepts text as well as a number. *)
Inductive label : Type :=
  | LStr (s : string)
  | LFloat (q : Qc).

(** [data.index.values], [data.columns.values] and the rows
    [data.iloc[i].values] of a numeric frame. *)
Record DataFrame : Type := mkDataFrame {
  index : list Qc;
  columns : list label;
  values : list (list Qc)
}.

(** Every row has one value per column and there is one row per index
    entry, as in any data frame. *)
Definition rectangular (t : DataFrame) : Prop :=
  length (values t) = length (index t)
  ∧ Forall (λ r, length r = length (columns t)) (values t).

(** [data.iloc[i].values]. *)
Definition iloc (t : DataFrame) (i : nat) : result (list Qc) :=
  match values t !! i with
  | Some r => Ok r
  | None => Raise IndexError
  end.

Definition tab : ascii := ascii_of_nat 9.
Definition lf : ascii := ascii_of_nat 10.

(** The fields of [cs] between occurrences of [sep]. *)
Fixpoint split (sep : ascii) (cs : list ascii) : list (list ascii) :=
  match cs with
  | [] => [[]]
  | c :: cs' =>
      if Ascii.eqb c sep then [] :: split sep cs'
      else match split sep cs' with
           | f :: fs => (c :: f) :: fs
           | [] => [[c]]
           end
  end.







End pd.

(** [float(x)] as the renderers apply it to a column label. *)
Definition float (x : pd.label) : result Qc :=
  match x with
  | pd.LStr s => pyfloat.of_string s
  | pd.LFloat q => Ok q
  end.

(** ** matplotlib: figures, axes and line artists *)

Module plt.

Inductive scale : Set := Linear | Log.

Record Line2D : Type := mkLine { xdata : list Qc; ydata : list Qc }.

Record Axes : Type := mkAxes {
  lines : list Line2D;
  xscale : scale;
  xlabel : string;
  ylabel : string
}.

(** The axes a new subplot starts as. *)
Definition blank : Axes :=
  {| lines := []; xscale := Linear; xlabel := ""; ylabel := "" |}.

Definition with_xscale (s : scale) (ax : Axes) : Axes :=
  {| lines := lines ax; xscale := s;
     xlabel := xlabel ax; ylabel := ylabel ax |}.
Definition add_line (l : Line2D) (ax : Axes) : Axes :=
  {| lines := lines ax ++ [l]; xscale := xscale ax;
     xlabel := xlabel ax; ylabel := ylabel ax |}.
Definition with_xlabel (s : string) (ax : Axes) : Axes :=
  {| lines := lines ax; xscale := xscale ax;
     xlabel := s; ylabel := ylabel ax |}.
Definition with_ylabel (s : string) (ax : Axes) : Axes :=
  {| lines := lines ax; xscale := xscale ax;
     xlabel := xlabel ax; ylabel := s |}.

End plt.

(** ** The store and the monad of calls *)

(** A handle is a position in the store. *)
Abbreviation handle := nat.

Inductive file : Type :=
  | Contents (text : string)
  | Denied.

(** [files] maps a path to a file; [frames], [figures] (each figure is
    the list of the axes it holds) and [axes] are the live objects, a
    handle being a position in its list; [stdout] is the sequence of
    values printed. *)
Record world : Type := mkWorld {
  files : list (string * file);
  frames : list pd.DataFrame;
  figures : list (list handle);
  axes : list plt.Axes;
  stdout : list nat
}.

Definition M (A : Type) : Type := world → world * result A.

#[global] Instance M_ret : MRet M := λ A a σ, (σ, Ok a).
#[global] Instance M_bind : MBind M := λ A B k m σ,
  match m σ with
  | (σ', Ok a) => k a σ'
  | (σ', Raise e) => (σ', Raise e)
  | (σ', Beyond) => (σ', Beyond)
  end.

Definition lift {A} (r : result A) : M A := λ σ, (σ, r).



(** Reading an attribute [f] of the frame object [data]. *)
Definition attr {A} (data : handle) (f : pd.DataFrame → A) : M A := λ σ,
  match frames σ !! data with
  | Some t => (σ, Ok (f t))
  | None => (σ, Raise AttributeError)
  end.

(** [print v] (a Python 2 statement). *)
Definition print (v : nat) : M unit := λ σ,
  ({| files := files σ; frames := frames σ; figures := figures σ;
      axes := axes σ; stdout := stdout σ ++ [v] |}, Ok ()).

(** [plt.figure()]: a new figure without axes. *)
Definition plt_figure : M handle := λ σ,
  ({| files := files σ; frames := frames σ;
      figures := figures σ ++ [[]]; axes := axes σ; stdout := stdout σ |},
   Ok (length (figures σ))).

(** [fig.add_subplot(111)] on a figure without axes: a new blank axes,
    recorded in the figure. *)
Definition add_subplot (fig : handle) : M handle := λ σ,
  match figures σ !! fig with
  | Some held =>
      ({| files := files σ; frames := frames σ;
          figures := <[fig := held ++ [length (axes σ)]]> (figures σ);
          axes := axes σ ++ [plt.blank]; stdout := stdout σ |},
       Ok (length (axes σ)))
  | None => (σ, Raise AttributeError)
  end.

Definition update_axes (axis : handle) (f : plt.Axes → plt.Axes) : M unit :=
  λ σ,
  match axes σ !! axis with
  | Some ax =>
      ({| files := files σ; frames := frames σ; figures := figures σ;
          axes := <[axis := f ax]> (axes σ); stdout := stdout σ |}, Ok ())
  | None => (σ, Raise AttributeError)
  end.

(** [axis.semilogx(x, y)]: the horizontal scale becomes logarithmic,
    then the line is drawn; data of different lengths raise ValueError
    at the drawing step. *)
Definition semilogx (axis : handle) (x y : list Qc) : M unit :=
  update_axes axis (plt.with_xscale plt.Log);;
  if decide (length x = length y) then
    update_axes axis (plt.add_line {| plt.xdata := x; plt.ydata := y |})
  else lift (Raise ValueError).

Definition set_xlabel (axis : handle) (s : string) : M unit :=
  update_axes axis (plt.with_xlabel s).
Definition set_ylabel (axis : handle) (s : string) : M unit :=
  update_axes axis (plt.with_ylabel s).

(** Reading a local variable: [None] is a name that no assignment has
    bound on the path taken. *)
Definition load_local {A} (v : option A) : M A :=
  match v with
  | Some a => mret a
  | None => lift (Raise UnboundLocalError)
  end.

(** ** The module [plots/plotting.py] *)


(** The body is [pass]: the call evaluates to Python's [None]. *)
Definition read_surfacedensity (filename : string) : M (option handle) :=
  mret None.

Definition plot_inwardflux (data : handle) (time : Qc) (axis : option handle)
  : M handle :=
  '(fig, axis) ← match axis return M (option handle * handle) with
                 | None =>
                     fig ← plt_figure;
                     axis ← add_subplot fig;
                     mret (Some fig, axis)
                 | Some axis => mret (None, axis)
                 end;
  times ← attr data pd.index;
  closest_time_index ← lift (np.argmin (np.abs (np.sub_scalar times time)));
  print closest_time_index;;
  closest_time ← lift (np.getitem times closest_time_index);
  smas ← (columns ← attr data pd.columns; lift (rmap float columns));
  flux ← (iloc ← attr data pd.iloc; lift (iloc closest_time_index));
  semilogx axis smas flux;;
  set_xlabel axis "Distance from star [AU]";;
  set_ylabel axis "Inward pebble flux [M$_{\oplus}$/yr]";;
  load_local fig.

Definition plot_accretion (data : handle) (time : Qc) (axis : option handle)
  : M handle :=
  '(fig, axis) ← match axis return M (option handle * handle) with
                 | None =>
                     fig ← plt_figure;
                     axis ← add_subplot fig;
                     mret (Some fig, axis)
                 | Some axis => mret (None, axis)
                 end;
  times ← attr data pd.index;
  closest_time_index ← lift (np.argmin (np.abs (np.sub_scalar times time)));
  print closest_time_index;;
  closest_time ← lift (np.getitem times closest_time_index);
  smas ← (columns ← attr data pd.columns; lift (rmap float columns));
  flux ← (iloc ← attr data pd.iloc; lift (iloc closest_time_index));
  accretion ← (d ← lift (np.sub (np.slice_from1 flux) (np.slice_to_last flux));
               mret (np.hstack d [0%Qc]));
  semilogx axis smas accretion;;
  set_xlabel axis "Distance from star [AU]";;
  set_ylabel axis "d(inward flux)/dlog(orbital distance)";;
  load_local fig.

(** ** Vocabulary of the properties *)

(** [i] is the first position of [times] whose entry is nearest to
    [time]: no entry is nearer, and every earlier entry is strictly
    farther. *)
Definition first_nearest (times : list Qc) (time : Qc) (i : nat) : Prop :=
  ∃ ti, times !! i = Some ti
    ∧ (∀ j tj, times !! j = Some tj →
         (Qcabs (ti - time) <= Qcabs (tj - time))%Qc)
    ∧ (∀ j tj, j < i → times !! j = Some tj →
         (Qcabs (ti - time) < Qcabs (tj - time))%Qc).


(** What a completed drawing step leaves of an axes: one more line, a
    logarithmic horizontal scale and the two labels. *)
Definition painted (xl yl : string) (l : plt.Line2D) (ax : plt.Axes)
  : plt.Axes :=
  {| plt.lines := plt.lines ax ++ [l]; plt.xscale := plt.Log;
     plt.xlabel := xl; plt.ylabel := yl |}.

Definition flux_xlabel : string := "Distance from star [AU]".
Definition flux_ylabel : string := "Inward pebble flux [M$_{\oplus}$/yr]".
Definition accretion_ylabel : string :=
  "d(inward flux)/dlog(orbital distance)".

(** The first-difference transform of [plot_accretion] on a row, as the
    source composes it. *)
Definition accretion_of (flux : list Qc) : result (list Qc) :=
  rbind (np.sub (np.slice_from1 flux) (np.slice_to_last flux))
        (λ d, Ok (np.hstack d [0%Qc])).

(** The lines drawn on the axes [a] of a store. *)
Definition lines_of (σ : world) (a : handle) : list plt.Line2D :=
  from_option plt.lines [] (axes σ !! a).

(** A decimal fraction [n/d] as a float. *)
Definition dec (n : Z) (d : positive) : Qc := Q2Qc (Qmake n d).

(** The store after a renderer has run to its return statement: the
    index [i] was printed and [paint] was applied to the axes drawn on,
    which is the caller's, or else the single axes of a new figure. *)
Definition after_call (σ : world) (axis : option handle) (i : nat)
    (paint : plt.Axes → plt.Axes) : world :=
  match axis with
  | Some a =>
      {| files := files σ; frames := frames σ; figures := figures σ;
         axes := alter paint a (axes σ); stdout := stdout σ ++ [i] |}
  | None =>
      {| files := files σ; frames := frames σ;
         figures := figures σ ++ [[length (axes σ)]];
         axes := axes σ ++ [paint plt.blank]; stdout := stdout σ ++ [i] |}
  end.

(** What the statement [return(fig)] evaluates to. *)
Definition returned (σ : world) (axis : option handle) : result handle :=
  match axis with
  | Some _ => Raise UnboundLocalError
  | None => Ok (length (figures σ))
  end.

(** The axis argument is [None] or a live axes. *)
Definition live_axis (σ : world) (axis : option handle) : Prop :=
  ∀ a, axis = Some a → a < length (axes σ).

(** The axes a call draws on: the caller's, or the one about to be
    created. *)
Definition target (σ : world) (axis : option handle) : handle :=
  match axis with
  | Some a => a
  | None => length (axes σ)
  end.

(** The store once the axis has been settled (lines 14 to 16 and 30 to
    32): unchanged, or with one more figure holding one blank axes. *)
Definition settled (σ : world) (axis : option handle) : world :=
  match axis with
  | Some _ => σ
  | None =>
      {| files := files σ; frames := frames σ;
         figures := figures σ ++ [[length (axes σ)]];
         axes := axes σ ++ [plt.blank]; stdout := stdout σ |}
  end.

Definition printed (σ : world) (i : nat) : world :=
  {| files := files σ; frames := frames σ; figures := figures σ;
     axes := axes σ; stdout := stdout σ ++ [i] |}.

(** A call whose result is never a value. *)
Definition fails {A} (m : M A) : Prop := ∀ σ, is_ok (m σ).2 = false.

(** A call that leaves the component [proj] of the store as it was,
    however it ends. *)
Definition keeps {A B} (proj : world → B) (m : M A) : Prop :=
  ∀ σ, proj (m σ).1 = proj σ.


(** *** Well-formed input files *)

Definition chars (s : string) : list ascii := list_ascii_of_string s.




(** The content of a flux file: the name of the index column, the
    distance labels of the header, and one line per time with the time
    first and one flux per distance after it. *)
Record sheet : Type := mkSheet {
  corner : string;
  labels : list string;
  body : list (string * list string)
}.

Fixpoint join (sep : ascii) (fields : list (list ascii)) : list ascii :=
  match fields with
  | [] => []
  | [f] => f
  | f :: fs => f ++ sep :: join sep fs
  end.

Definition line (fields : list string) : list ascii :=
  join pd.tab (map chars fields).

(** The text of the file: tab-separated fields, every line ended by a
    line feed. *)
Definition render (s : sheet) : string :=
  string_of_list_ascii
    (concat (map (λ l, l ++ [pd.lf])
       (line (corner s :: labels s)
        :: map (λ r, line (r.1 :: r.2)) (body s)))).





(** A frame that both renderers can draw: at least one time, at least
    one distance, one flux per time and distance, and labels that
    [float] converts. *)
Definition plottable (t : pd.DataFrame) : Prop :=
  pd.index t ≠ [] ∧ pd.columns t ≠ [] ∧ pd.rectangular t
  ∧ is_ok (rmap float (pd.columns t)) = true.

(** *** Sample data *)

Definition sample_index : list Qc := [dec 0 1; dec 1 1; dec 5 2; dec 5 1].

Definition sample_table : pd.DataFrame :=
  {| pd.index := sample_index;
     pd.columns := [pd.LStr "0.1"; pd.LStr "1"; pd.LStr "10"; pd.LStr "100"];
     pd.values := [ [dec 0 1; dec 0 1; dec 0 1; dec 0 1];
                    [dec 1 1; dec 2 1; dec 3 1; dec 4 1];
                    [dec 1 1; dec 3 1; dec 6 1; dec 6 1];
                    [dec 2 1; dec 4 1; dec 8 1; dec 9 1] ] |}.

Definition empty_table : pd.DataFrame :=
  {| pd.index := []; pd.columns := [pd.LStr "0.1"; pd.LStr "1"];
     pd.values := [] |}.

Definition one_row_table : pd.DataFrame :=
  {| pd.index := [dec 0 1]; pd.columns := [pd.LStr "1"; pd.LStr "2"];
     pd.values := [ [dec 1 1; dec 3 1] ] |}.

(** An index that is neither sorted nor free of repetitions. *)
Definition shuffled_index : list Qc :=
  [dec 5 1; dec 0 1; dec 5 2; dec 1 1; dec 5 2].

Definition shuffled_table : pd.DataFrame :=
  {| pd.index := shuffled_index;
     pd.columns := [pd.LStr "1"; pd.LStr "2"];
     pd.values := [ [dec 9 1; dec 9 1]; [dec 0 1; dec 1 1];
                    [dec 2 1; dec 5 1]; [dec 1 1; dec 1 1];
                    [dec 7 1; dec 7 1] ] |}.

Definition sample_sheet : sheet :=
  mkSheet "time" ["0.1"; "1.0"; "10"]%string
    [ ("0.0", ["5"; "6.5"; "7"]); ("1.0", ["7"; "8"; "1e1"]) ]%string.

(** A file whose second column label is not a number. *)
Definition bad_sheet : sheet :=
  mkSheet "time" ["0.1"; "abc"]%string [ ("0.0", ["5"; "6.5"]) ]%string.

Definition sample_world : world :=
  {| files := [ ("flux.txt"%string, Contents (render sample_sheet));
                ("bad.txt"%string, Contents (render bad_sheet));
                ("locked.txt"%string, Denied) ];
     frames := [sample_table; empty_table; one_row_table; shuffled_table];
     figures := [[0]];
     axes := [plt.blank];
     stdout := [] |}.

(** *** Further vocabulary and sample data *)



(** A frame with times but no distance column. *)
Definition bare_table : pd.DataFrame :=
  {| pd.index := [dec 0 1; dec 1 1]; pd.columns := [];
     pd.values := [ []; [] ] |}.

(** A frame whose second label is not a number. *)
Definition mislabelled_table : pd.DataFrame :=
  {| pd.index := sample_index;
     pd.columns := [pd.LStr "0.1"; pd.LStr "abc"];
     pd.values := [ [dec 0 1; dec 0 1]; [dec 1 1; dec 2 1];
                    [dec 1 1; dec 3 1]; [dec 2 1; dec 4 1] ] |}.

Definition second_world : world :=
  {| files := files sample_world;
     frames := [sample_table; empty_table; bare_table; mislabelled_table];
     figures := [[0]];
     axes := [plt.blank];
     stdout := [] |}.

(** The store once [semilogx] has set the scale of the axes [a] and
    failed to draw. *)
Definition rescaled (σ : world) (a : handle) : world :=
  {| files := files σ; frames := frames σ; figures := figures σ;
     axes := alter (plt.with_xscale plt.Log) a (axes σ);
     stdout := stdout σ |}.



(** * Properties *)

(** ** The scan of argmin *)

Section Argmin.

Local Open Scope Qc_scope.

Lemma Qccompare_not_Lt (x y : Qc) : Qccompare x y ≠ Lt → y <= x.
Proof.
  intros H. apply Qcnot_lt_le. intros Hlt. apply H. by apply Qclt_alt.
Qed.

(** The scan returns either the incoming best position, when no
    element is smaller than [best], or the first position holding the
    least element. *)
Lemma argmin_scan_spec (a : list Qc) : ∀ best besti i,
  (np.argmin_scan best besti i a = besti
     ∧ ∀ j y, a !! j = Some y → best <= y)
  ∨ (∃ k x, np.argmin_scan best besti i a = (i + k)%nat
       ∧ a !! k = Some x ∧ x < best
       ∧ (∀ j y, a !! j = Some y → x <= y)
       ∧ (∀ j y, (j < k)%nat → a !! j = Some y → x < y)).
Proof.
  induction a as [|x a IH]; intros best besti i.
  { left. split; [done|]. intros j y Hj. by rewrite lookup_nil in Hj. }
  destruct (decide (Qccompare x best = Lt)) as [Hlt|Hge].
  - (* [x] becomes the best *)
    simpl. rewrite Hlt. apply Qclt_alt in Hlt.
    destruct (IH x i (S i))
      as [[-> Hall]|(k & z & -> & Hk & Hz & Hmin & Hfirst)]; right.
    + exists 0%nat, x. split_and!; [lia|done|done|..].
      * intros [|j] y Hj; simplify_eq/=; [apply Qcle_refl|eauto].
      * intros j y Hj. lia.
    + exists (S k), z. split_and!; [lia|done|..].
      * by eapply Qclt_trans.
      * intros [|j] y Hj; simplify_eq/=; [by apply Qclt_le_weak|eauto].
      * intros [|j] y Hj Hy; simplify_eq/=; [done|].
        apply (Hfirst j); [lia|done].
  - (* [best] stays *)
    assert (np.argmin_scan best besti i (x :: a)
            = np.argmin_scan best besti (S i) a) as ->
      by (simpl; by destruct (Qccompare x best)).
    apply Qccompare_not_Lt in Hge.
    destruct (IH best besti (S i))
      as [[-> Hall]|(k & z & -> & Hk & Hz & Hmin & Hfirst)].
    + left. split; [done|]. intros [|j] y Hj; simplify_eq/=; eauto.
    + right. exists (S k), z. split_and!; [lia|done|done|..].
      * intros [|j] y Hj; simplify_eq/=; [|eauto].
        apply Qclt_le_weak. by eapply Qclt_le_trans.
      * intros [|j] y Hj Hy; simplify_eq/=; [by eapply Qclt_le_trans|].
        apply (Hfirst j); [lia|done].
Qed.

(** [np.argmin] of a non-empty array is the first position of its
    least element. *)
Lemma argmin_first_min (a : list Qc) :
  a ≠ [] →
  ∃ i m, np.argmin a = Ok i ∧ a !! i = Some m
    ∧ (∀ j y, a !! j = Some y → m <= y)
    ∧ (∀ j y, (j < i)%nat → a !! j = Some y → m < y).
Proof.
  destruct a as [|x a]; [done|intros _]. simpl.
  destruct (argmin_scan_spec a x 0%nat 1%nat)
    as [[-> Hall]|(k & z & -> & Hk & Hz & Hmin & Hfirst)].
  - exists 0%nat, x. split_and!; [done|done|..].
    + intros [|j] y Hj; simplify_eq/=; [apply Qcle_refl|eauto].
    + intros j y Hlt. lia.
  - exists (S k), z. split_and!; [done|done|..].
    + intros [|j] y Hj; simplify_eq/=; [by apply Qclt_le_weak|eauto].
    + intros [|j] y Hlt Hj; simplify_eq/=; [done|apply (Hfirst j); [lia|done]].
Qed.

(** The index computed at lines 18 and 34 of the source. *)
Lemma closest_time_index_spec (times : list Qc) (time : Qc) :
  times ≠ [] →
  ∃ i, np.argmin (np.abs (np.sub_scalar times time)) = Ok i
    ∧ first_nearest times time i.
Proof.
  intros Hne.
  destruct (argmin_first_min (np.abs (np.sub_scalar times time)))
    as (i & m & Harg & Hi & Hmin & Hfirst).
  { by destruct times. }
  exists i. split; [done|].
  unfold np.abs, np.sub_scalar in *.
  rewrite !list_lookup_fmap in Hi.
  destruct (times !! i) as [ti|] eqn:Hti; simplify_eq/=.
  exists ti. split; [done|]. split.
  - intros j tj Hj. apply (Hmin j).
    by rewrite !list_lookup_fmap, Hj.
  - intros j tj Hlt Hj. apply (Hfirst j); [done|].
    by rewrite !list_lookup_fmap, Hj.
Qed.

End Argmin.

(** ** Running the renderers *)

Section Steps.

Lemma rmap_length {A B} (f : A → result B) (l : list A) (ys : list B) :
  rmap f l = Ok ys → length ys = length l.
Proof.
  revert ys. induction l as [|x l IH]; intros ys; simpl.
  - by intros [= <-].
  - destruct (f x); simpl; [|done..].
    destruct (rmap f l); simpl; [|done..].
    intros [= <-]. simpl. f_equal. by apply IH.
Qed.

(** The transform never fails: the two slices have the same length. *)
Lemma accretion_of_eq (flux : list Qc) :
  accretion_of flux
  = Ok (zip_with Qcminus (drop 1 flux) (take (length flux - 1) flux)
        ++ [0%Qc]).
Proof.
  unfold accretion_of, np.sub, np.slice_from1, np.slice_to_last, np.hstack.
  rewrite decide_True; [done|].
  rewrite length_drop, length_take. lia.
Qed.

Lemma accretion_of_length (flux acc : list Qc) :
  accretion_of flux = Ok acc → flux ≠ [] → length acc = length flux.
Proof.
  rewrite accretion_of_eq. intros [= <-] Hne.
  rewrite length_app, length_zip_with, length_drop, length_take. simpl.
  destruct flux; [done|]. simpl. lia.
Qed.

Lemma bind_run {A B} (m : M A) (k : A → M B) σ σ' a :
  m σ = (σ', Ok a) → (m ≫= k) σ = k a σ'.
Proof. unfold mbind, M_bind. by intros ->. Qed.

Lemma bind_raise {A B} (m : M A) (k : A → M B) σ σ' e :
  m σ = (σ', Raise e) → (m ≫= k) σ = (σ', Raise e).
Proof. unfold mbind, M_bind. by intros ->. Qed.

Lemma attr_run {A} (f : pd.DataFrame → A) σ data t :
  frames σ !! data = Some t → attr data f σ = (σ, Ok (f t)).
Proof. unfold attr. by intros ->. Qed.

(** The drawing steps on a live axes, followed by the rest [k] of the
    body. *)
Lemma draw_run {A} (k : M A) (σ : world) (a : handle) (ax : plt.Axes)
    xl yl x y :
  axes σ !! a = Some ax → length x = length y →
  (semilogx a x y;; set_xlabel a xl;; set_ylabel a yl;; k) σ
  = k {| files := files σ; frames := frames σ; figures := figures σ;
         axes := <[a := painted xl yl (plt.mkLine x y) ax]> (axes σ);
         stdout := stdout σ |}.
Proof.
  intros Ha Hlen.
  assert (a < length (axes σ)) as Hlt by by eapply lookup_lt_Some.
  unfold semilogx, set_xlabel, set_ylabel, update_axes, mbind, M_bind.
  rewrite Ha. cbn. rewrite decide_True by done. cbn.
  rewrite list_lookup_insert_eq by done. cbn.
  rewrite list_lookup_insert_eq by (by rewrite length_insert). cbn.
  rewrite list_lookup_insert_eq by (by rewrite !length_insert). cbn.
  by rewrite !list_insert_insert_eq.
Qed.

Lemma alter_insert (l : list plt.Axes) (a : handle) ax f :
  l !! a = Some ax → <[a := f ax]> l = alter f a l.
Proof.
  intros Ha. apply list_eq. intros j.
  destruct (decide (a = j)) as [<-|Hne].
  - rewrite list_lookup_insert_eq by (by eapply lookup_lt_Some).
    by rewrite list_lookup_alter_eq, Ha.
  - by rewrite list_lookup_insert_ne, list_lookup_alter_ne.
Qed.

(** The first two statements, when no axis is given. *)
Lemma new_axis_run (σ : world) :
  (fig ← plt_figure; axis ← add_subplot fig;
   mret (Some fig, axis) : M (option handle * handle)) σ
  = ({| files := files σ; frames := frames σ;
        figures := figures σ ++ [[length (axes σ)]];
        axes := axes σ ++ [plt.blank]; stdout := stdout σ |},
     Ok (Some (length (figures σ)), length (axes σ))).
Proof.
  unfold plt_figure, add_subplot, mbind, M_bind, mret, M_ret. cbn.
  rewrite list_lookup_middle by done. cbn.
  replace (length (figures σ)) with (length (figures σ) + 0) at 1 by lia.
  by rewrite insert_app_r.
Qed.

Lemma settle_run (σ : world) (axis : option handle) :
  (match axis return M (option handle * handle) with
   | None => fig ← plt_figure; axis ← add_subplot fig; mret (Some fig, axis)
   | Some axis => mret (None, axis)
   end) σ
  = (settled σ axis,
     Ok (match axis with None => Some (length (figures σ)) | Some _ => None end,
         target σ axis)).
Proof. destruct axis; [done|apply new_axis_run]. Qed.

Lemma insert_snoc (l : list plt.Axes) (x y : plt.Axes) :
  <[length l := y]> (l ++ [x]) = l ++ [y].
Proof.
  replace (length l) with (length l + 0) at 1 by lia.
  by rewrite insert_app_r.
Qed.

Lemma frames_settled σ axis : frames (settled σ axis) = frames σ.
Proof. by destruct axis. Qed.

Lemma after_call_settled σ axis i paint ax :
  axes (settled σ axis) !! target σ axis = Some ax →
  {| files := files (settled σ axis); frames := frames (settled σ axis);
     figures := figures (settled σ axis);
     axes := <[target σ axis := paint ax]> (axes (settled σ axis));
     stdout := stdout (settled σ axis) ++ [i] |}
  = after_call σ axis i paint.
Proof.
  destruct axis as [a|]; cbn; intros Hax.
  - by erewrite alter_insert.
  - rewrite list_lookup_middle in Hax by done. simplify_eq.
    by rewrite insert_snoc.
Qed.

Lemma target_live σ axis :
  live_axis σ axis → is_Some (axes (settled σ axis) !! target σ axis).
Proof.
  destruct axis as [a|]; cbn; intros Hlive.
  - apply lookup_lt_is_Some_2. by apply Hlive.
  - rewrite list_lookup_middle by done. by eexists.
Qed.

End Steps.

(** The statements of a renderer are run one at a time.  [run_selection]
    runs lines 14 to 19 (30 to 35) on a store holding the frame,
    [run_getitem] the read of the selected time, [run_reads] the
    conversion of the labels and the read of the row. *)
Ltac run_selection Ht Harg :=
  erewrite bind_run by apply settle_run; cbn beta iota;
  erewrite bind_run by (apply attr_run; rewrite frames_settled; exact Ht);
  rewrite Harg; erewrite bind_run by reflexivity;
  erewrite bind_run by reflexivity.

Ltac run_getitem Hti :=
  unfold np.getitem; rewrite Hti; erewrite bind_run by reflexivity.

Ltac run_reads Ht Hsmas Hflux :=
  (erewrite bind_run;
     [|erewrite bind_run by (apply attr_run; exact Ht);
       by rewrite Hsmas]);
  (erewrite bind_run;
     [|erewrite bind_run by (apply attr_run; exact Ht);
       unfold pd.iloc; by rewrite Hflux]).

Section Runs.

(** [plot_inwardflux] run to its return statement. *)
Lemma plot_inwardflux_run σ data t time axis i ti smas flux :
  frames σ !! data = Some t →
  np.argmin (np.abs (np.sub_scalar (pd.index t) time)) = Ok i →
  pd.index t !! i = Some ti →
  rmap float (pd.columns t) = Ok smas →
  pd.values t !! i = Some flux →
  length smas = length flux →
  live_axis σ axis →
  plot_inwardflux data time axis σ
  = (after_call σ axis i
       (painted flux_xlabel flux_ylabel (plt.mkLine smas flux)),
     returned σ axis).
Proof.
  intros Ht Harg Hti Hsmas Hflux Hlen Hlive.
  destruct (target_live σ axis Hlive) as [ax Hax].
  assert (frames (printed (settled σ axis) i) !! data = Some t) as Ht'
    by (by cbn; rewrite frames_settled).
  unfold plot_inwardflux.
  run_selection Ht Harg.
  run_getitem Hti.
  run_reads Ht' Hsmas Hflux.
  erewrite draw_run by done. cbn.
  erewrite after_call_settled by done.
  by destruct axis.
Qed.

(** [plot_accretion] run to its return statement. *)
Lemma plot_accretion_run σ data t time axis i ti smas flux acc :
  frames σ !! data = Some t →
  np.argmin (np.abs (np.sub_scalar (pd.index t) time)) = Ok i →
  pd.index t !! i = Some ti →
  rmap float (pd.columns t) = Ok smas →
  pd.values t !! i = Some flux →
  accretion_of flux = Ok acc →
  length smas = length acc →
  live_axis σ axis →
  plot_accretion data time axis σ
  = (after_call σ axis i
       (painted flux_xlabel accretion_ylabel (plt.mkLine smas acc)),
     returned σ axis).
Proof.
  intros Ht Harg Hti Hsmas Hflux Hacc Hlen Hlive.
  destruct (target_live σ axis Hlive) as [ax Hax].
  assert (frames (printed (settled σ axis) i) !! data = Some t) as Ht'
    by (by cbn; rewrite frames_settled).
  rewrite accretion_of_eq in Hacc. injection Hacc as <-.
  unfold plot_accretion.
  run_selection Ht Harg.
  run_getitem Hti.
  run_reads Ht' Hsmas Hflux.
  erewrite bind_run; cycle 1.
  { erewrite bind_run; [reflexivity|].
    unfold np.sub, np.slice_from1, np.slice_to_last.
    rewrite decide_True; [reflexivity|].
    rewrite length_drop, length_take. lia. }
  erewrite draw_run by done. cbn.
  erewrite after_call_settled by done.
  by destruct axis.
Qed.

(** On a frame without rows both renderers stop at [np.argmin], once
    the axis is settled. *)
Lemma plot_inwardflux_empty σ data t time axis :
  frames σ !! data = Some t → pd.index t = [] →
  plot_inwardflux data time axis σ = (settled σ axis, Raise ValueError).
Proof.
  intros Ht Hnil. unfold plot_inwardflux.
  erewrite bind_run by apply settle_run. cbn beta iota.
  erewrite bind_run by (apply attr_run; rewrite frames_settled; exact Ht).
  rewrite Hnil. by erewrite bind_raise.
Qed.

Lemma plot_accretion_empty σ data t time axis :
  frames σ !! data = Some t → pd.index t = [] →
  plot_accretion data time axis σ = (settled σ axis, Raise ValueError).
Proof.
  intros Ht Hnil. unfold plot_accretion.
  erewrite bind_run by apply settle_run. cbn beta iota.
  erewrite bind_run by (apply attr_run; rewrite frames_settled; exact Ht).
  rewrite Hnil. by erewrite bind_raise.
Qed.



End Runs.

(** ** What every run preserves *)

Section Frames.

Context {B : Type} (proj : world → B).

Lemma keeps_bind {A C} (m : M A) (k : A → M C) :
  keeps proj m → (∀ a, keeps proj (k a)) → keeps proj (m ≫= k).
Proof.
  intros Hm Hk σ. unfold mbind, M_bind.
  specialize (Hm σ). destruct (m σ) as [σ' [a| |]]; cbn in *; [|done..].
  by rewrite Hk.
Qed.

Lemma keeps_ret {A} (a : A) : keeps proj (mret a).
Proof. done. Qed.

Lemma keeps_lift {A} (r : result A) : keeps proj (lift r).
Proof. done. Qed.

Lemma keeps_attr {A} data (f : pd.DataFrame → A) : keeps proj (attr data f).
Proof. intros σ. unfold attr. by destruct (frames σ !! data). Qed.

Lemma keeps_load_local {A} (v : option A) : keeps proj (load_local v).
Proof. by destruct v. Qed.

(** A primitive that rebuilds the store keeps [proj] when [proj] reads
    a field it copies. *)
Hypothesis proj_axes : ∀ σ l,
  proj {| files := files σ; frames := frames σ; figures := figures σ;
          axes := l; stdout := stdout σ |} = proj σ.

Lemma keeps_update_axes a f : keeps proj (update_axes a f).
Proof.
  intros σ. unfold update_axes. destruct (axes σ !! a); [|done].
  apply proj_axes.
Qed.

Lemma keeps_semilogx a x y : keeps proj (semilogx a x y).
Proof.
  unfold semilogx. apply keeps_bind; [apply keeps_update_axes|].
  intros _. destruct (decide _); [apply keeps_update_axes|apply keeps_lift].
Qed.

(** The rest of either renderer after the row is selected. *)
Lemma keeps_drawing {A} a x y xl yl (k : M A) :
  keeps proj k →
  keeps proj (semilogx a x y;; set_xlabel a xl;; set_ylabel a yl;; k).
Proof.
  intros Hk.
  apply keeps_bind; [apply keeps_semilogx|intros _].
  apply keeps_bind; [apply keeps_update_axes|intros _].
  apply keeps_bind; [apply keeps_update_axes|intros _]. done.
Qed.

End Frames.

Section Preserved.

Ltac keeps_steps :=
  repeat first
    [ apply keeps_drawing; [done|apply keeps_load_local]
    | apply keeps_bind; [|intros ?]
    | apply keeps_ret | apply keeps_lift | apply keeps_attr
    | apply keeps_load_local ].

Lemma keeps_frames_print v : keeps frames (print v).
Proof. done. Qed.

Lemma keeps_frames_settle (axis : option handle) :
  keeps frames
    (match axis return M (option handle * handle) with
     | None => fig ← plt_figure; axis ← add_subplot fig; mret (Some fig, axis)
     | Some axis => mret (None, axis)
     end).
Proof. intros σ. rewrite settle_run. apply frames_settled. Qed.

(** Neither renderer touches a frame, however the call ends. *)
Lemma plot_inwardflux_keeps_frames data time axis :
  keeps frames (plot_inwardflux data time axis).
Proof.
  unfold plot_inwardflux.
  apply keeps_bind; [apply keeps_frames_settle|intros [fig a]].
  keeps_steps; apply keeps_frames_print || apply keeps_load_local.
Qed.

Lemma plot_accretion_keeps_frames data time axis :
  keeps frames (plot_accretion data time axis).
Proof.
  unfold plot_accretion.
  apply keeps_bind; [apply keeps_frames_settle|intros [fig a]].
  keeps_steps; apply keeps_frames_print || apply keeps_load_local.
Qed.

(** Once the index is printed nothing more is written to stdout. *)
Lemma plot_inwardflux_prints σ data t time axis i :
  frames σ !! data = Some t →
  np.argmin (np.abs (np.sub_scalar (pd.index t) time)) = Ok i →
  stdout (plot_inwardflux data time axis σ).1 = stdout σ ++ [i].
Proof.
  intros Ht Harg. unfold plot_inwardflux.
  run_selection Ht Harg.
  match goal with
  | |- stdout (?m ?s).1 = _ =>
      cut (keeps stdout m); [intros K; rewrite K; by destruct axis|]
  end.
  keeps_steps; apply keeps_load_local.
Qed.

Lemma plot_accretion_prints σ data t time axis i :
  frames σ !! data = Some t →
  np.argmin (np.abs (np.sub_scalar (pd.index t) time)) = Ok i →
  stdout (plot_accretion data time axis σ).1 = stdout σ ++ [i].
Proof.
  intros Ht Harg. unfold plot_accretion.
  run_selection Ht Harg.
  match goal with
  | |- stdout (?m ?s).1 = _ =>
      cut (keeps stdout m); [intros K; rewrite K; by destruct axis|]
  end.
  keeps_steps; apply keeps_load_local.
Qed.

Lemma fails_bind {A C} (m : M A) (k : A → M C) :
  (∀ a, fails (k a)) → fails (m ≫= k).
Proof.
  intros Hk σ. unfold mbind, M_bind.
  destruct (m σ) as [σ' [a| |]]; [apply Hk|done..].
Qed.

(** With a caller's axis the name [fig] is never bound, so no path
    through either renderer ends in a value. *)
Lemma plot_inwardflux_fails data time a :
  fails (plot_inwardflux data time (Some a)).
Proof.
  unfold plot_inwardflux. intros σ.
  erewrite bind_run by reflexivity. cbn beta iota.
  revert σ. repeat (apply fails_bind; intros ?). by intros σ.
Qed.

Lemma plot_accretion_fails data time a :
  fails (plot_accretion data time (Some a)).
Proof.
  unfold plot_accretion. intros σ.
  erewrite bind_run by reflexivity. cbn beta iota.
  revert σ. repeat (apply fails_bind; intros ?). by intros σ.
Qed.

End Preserved.

(** ** The reader on well-formed files *)

Section Reader.

Implicit Types (cs f : list ascii) (fs : list (list ascii)).
























End Reader.

(** ** Plottable frames *)

Section Plottable.


Lemma lines_after_call σ axis i xl yl l :
  live_axis σ axis →
  lines_of (after_call σ axis i (painted xl yl l)) (target σ axis)
  = lines_of σ (target σ axis) ++ [l].
Proof.
  unfold lines_of. destruct axis as [a|]; cbn; intros Hlive.
  - destruct (lookup_lt_is_Some_2 (axes σ) a) as [ax Hax]; [by apply Hlive|].
    by rewrite list_lookup_alter_eq, Hax.
  - rewrite list_lookup_middle by done.
    by rewrite (lookup_ge_None_2 (axes σ)) by done.
Qed.

(** On a plottable frame both renderers run to their return
    statement: the first nearest time is selected and printed, its row
    is drawn, and [return(fig)] is reached. *)
Lemma plottable_run σ data t time axis :
  frames σ !! data = Some t → plottable t → live_axis σ axis →
  ∃ i smas flux acc,
    np.argmin (np.abs (np.sub_scalar (pd.index t) time)) = Ok i
    ∧ first_nearest (pd.index t) time i
    ∧ rmap float (pd.columns t) = Ok smas
    ∧ pd.values t !! i = Some flux
    ∧ length flux = length (pd.columns t)
    ∧ accretion_of flux = Ok acc
    ∧ length acc = length flux
    ∧ plot_inwardflux data time axis σ
      = (after_call σ axis i
           (painted flux_xlabel flux_ylabel (plt.mkLine smas flux)),
         returned σ axis)
    ∧ plot_accretion data time axis σ
      = (after_call σ axis i
           (painted flux_xlabel accretion_ylabel (plt.mkLine smas acc)),
         returned σ axis).
Proof.
  intros Ht (Hrows & Hcols & [Hlen Hrect] & Hnum) Hlive.
  destruct (closest_time_index_spec (pd.index t) time Hrows)
    as (i & Harg & Hfirst).
  pose proof Hfirst as (ti & Hti & _).
  destruct (rmap float (pd.columns t)) as [smas| |] eqn:Hsmas; [|done..].
  destruct (lookup_lt_is_Some_2 (pd.values t) i) as [flux Hflux].
  { rewrite Hlen. by eapply lookup_lt_Some. }
  assert (length flux = length (pd.columns t)) as Hwidth.
  { by eapply (Forall_lookup_1 _ _ _ _ Hrect). }
  assert (flux ≠ []) as Hflux_ne.
  { intros ->. destruct (pd.columns t); [done|simpl in Hwidth; lia]. }
  pose proof (accretion_of_eq flux) as Hacc.
  pose proof (accretion_of_length _ _ Hacc Hflux_ne) as Hacc_len.
  pose proof (rmap_length _ _ _ Hsmas) as Hsmas_len.
  eexists i, smas, flux, _. split_and!; try done.
  - eapply plot_inwardflux_run; eauto. lia.
  - eapply plot_accretion_run; eauto. lia.
Qed.

End Plottable.

(** ** Nearest-time selection *)





(** ** The first-difference transform *)

Section Accretion.

Local Open Scope Qc_scope.



End Accretion.



(** ** The value returned *)

(** C3 as stated fails on a frame without rows: with [axis=None] no
    figure is returned, the call stops at [np.argmin]. *)
Lemma no_figure_for_empty_table :
  (plot_inwardflux 1 (dec 1 1) None sample_world).2 = Raise ValueError
  ∧ (plot_accretion 1 (dec 1 1) None sample_world).2 = Raise ValueError
  ∧ ¬ (∃ fig, (plot_inwardflux 1 (dec 1 1) None sample_world).2 = Ok fig).
Proof.
  assert ((plot_inwardflux 1 (dec 1 1) None sample_world).2
          = Raise ValueError) as H1
    by (by erewrite plot_inwardflux_empty).
  split_and!; [done| |].
  - by erewrite plot_accretion_empty.
  - intros [fig Hfig]. rewrite H1 in Hfig. discriminate.
Qed.

(** C3, amended.  With a caller-supplied axis neither renderer ever
    returns a figure: the name [fig] is unbound at [return(fig)], which
    raises UnboundLocalError once the line is drawn.  With [axis=None]
    and a plottable frame (a non-empty time index, at least one column,
    labels that convert) the value returned is a figure created by the
    call, holding a single axes created by the call. *)
Theorem figure_returned_only_without_axis :
  (∀ σ data time a,
     is_ok (plot_inwardflux data time (Some a) σ).2 = false
     ∧ is_ok (plot_accretion data time (Some a) σ).2 = false)
  ∧ (∀ σ data t time axis,
       frames σ !! data = Some t → plottable t → live_axis σ axis →
       match axis with
       | Some a =>
           (plot_inwardflux data time (Some a) σ).2 = Raise UnboundLocalError
           ∧ (plot_accretion data time (Some a) σ).2 = Raise UnboundLocalError
       | None =>
           ∃ fig ax,
             figures σ !! fig = None ∧ axes σ !! ax = None
             ∧ (plot_inwardflux data time None σ).2 = Ok fig
             ∧ figures (plot_inwardflux data time None σ).1 !! fig = Some [ax]
             ∧ is_Some (axes (plot_inwardflux data time None σ).1 !! ax)
             ∧ (plot_accretion data time None σ).2 = Ok fig
             ∧ figures (plot_accretion data time None σ).1 !! fig = Some [ax]
             ∧ is_Some (axes (plot_accretion data time None σ).1 !! ax)
       end).
Proof.
  split.
  - intros σ data time a. split.
    + apply plot_inwardflux_fails.
    + apply plot_accretion_fails.
  - intros σ data t time axis Ht Hplot Hlive.
    destruct (plottable_run σ data t time axis Ht Hplot Hlive)
      as (i & smas & flux & acc & _ & _ & _ & _ & _ & _ & _ & Hrun1 & Hrun2).
    destruct axis as [a|]; rewrite Hrun1, Hrun2; [done|].
    exists (length (figures σ)), (length (axes σ)). cbn.
    rewrite !list_lookup_middle by done.
    split_and!; try done; try (by apply lookup_ge_None_2); by eexists.
Qed.

Lemma figure_returned_only_without_axis_witness :
  is_ok (plot_inwardflux 0 (dec 26 10) (Some 0) sample_world).2 = false
  ∧ (plot_accretion 0 (dec 26 10) (Some 0) sample_world).2
    = Raise UnboundLocalError
  ∧ ∃ fig ax,
      figures sample_world !! fig = None ∧ axes sample_world !! ax = None
      ∧ (plot_inwardflux 0 (dec 26 10) None sample_world).2 = Ok fig
      ∧ figures (plot_inwardflux 0 (dec 26 10) None sample_world).1 !! fig
        = Some [ax].
Proof.
  assert (plottable sample_table) as Hplot.
  { split_and!; [discriminate|discriminate| |vm_compute; reflexivity].
    split; [reflexivity|]. repeat constructor. }
  split_and!.
  - exact (proj1 (proj1 figure_returned_only_without_axis
                    sample_world 0 (dec 26 10) 0)).
  - refine (proj2 (proj2 figure_returned_only_without_axis sample_world 0
                     sample_table (dec 26 10) (Some 0) _ Hplot _)).
    + reflexivity.
    + intros a [= <-]. simpl. lia.
  - destruct (proj2 figure_returned_only_without_axis sample_world 0
                sample_table (dec 26 10) None)
      as (fig & ax & Hfig & Hax & Hret & Hheld & _).
    + reflexivity.
    + exact Hplot.
    + intros a [=].
    + exists fig, ax. split_and!; assumption.
Defined.

(** ** Empty frames and times outside the index *)

Section Ends.

Local Open Scope Qc_scope.




Lemma lines_settled σ axis a : lines_of (settled σ axis) a = lines_of σ a.
Proof.
  unfold lines_of. destruct axis as [b|]; [done|]. cbn.
  destruct (decide (a < length (axes σ))%nat) as [Hlt|Hge].
  - by rewrite lookup_app_l.
  - rewrite (lookup_ge_None_2 (axes σ)) by lia.
    destruct (decide (a = length (axes σ))) as [->|Hne].
    + by rewrite list_lookup_middle.
    + rewrite lookup_ge_None_2; [done|]. rewrite length_app. simpl. lia.
Qed.

End Ends.




(** ** Calling a renderer twice *)

Lemma live_after_call σ axis i paint :
  live_axis σ axis → live_axis (after_call σ axis i paint) axis.
Proof.
  intros Hlive a ->. cbn. rewrite length_alter. by apply Hlive.
Qed.

Lemma frames_after_call σ axis i paint :
  frames (after_call σ axis i paint) = frames σ.
Proof. by destruct axis. Qed.

(** C8.  Calling either renderer twice with the same frame, time and
    axis leaves every frame of the store as it was, and each call adds
    one line to the axes it draws on, the same line both times: on a
    caller's axis the two calls add two identical lines. *)
Theorem repeated_call_adds_identical_lines
    (σ : world) (data : handle) (t : pd.DataFrame) (time : Qc)
    (axis : option handle) :
  frames σ !! data = Some t → plottable t → live_axis σ axis →
  let σ1 := (plot_inwardflux data time axis σ).1 in
  let σ2 := (plot_inwardflux data time axis σ1).1 in
  let τ1 := (plot_accretion data time axis σ).1 in
  let τ2 := (plot_accretion data time axis τ1).1 in
  (frames σ1 = frames σ ∧ frames σ2 = frames σ
   ∧ frames τ1 = frames σ ∧ frames τ2 = frames σ)
  ∧ (∃ l,
       lines_of σ1 (target σ axis) = lines_of σ (target σ axis) ++ [l]
       ∧ lines_of σ2 (target σ1 axis) = lines_of σ1 (target σ1 axis) ++ [l]
       ∧ ∀ a, axis = Some a → lines_of σ2 a = lines_of σ a ++ [l; l])
  ∧ (∃ l,
       lines_of τ1 (target σ axis) = lines_of σ (target σ axis) ++ [l]
       ∧ lines_of τ2 (target τ1 axis) = lines_of τ1 (target τ1 axis) ++ [l]
       ∧ ∀ a, axis = Some a → lines_of τ2 a = lines_of σ a ++ [l; l]).
Proof.
  intros Ht Hplot Hlive σ1 σ2 τ1 τ2.
  split; [|split].
  - unfold σ2, σ1, τ2, τ1.
    by rewrite !plot_inwardflux_keeps_frames, !plot_accretion_keeps_frames.
  - destruct (plottable_run σ data t time axis Ht Hplot Hlive)
      as (i & smas & flux & acc & Harg & _ & Hsmas & Hflux & _ & Hacc & _
          & Hrun & _).
    assert (σ1 = after_call σ axis i
              (painted flux_xlabel flux_ylabel (plt.mkLine smas flux)))
      as Hσ1 by (unfold σ1; by rewrite Hrun).
    assert (live_axis σ1 axis) as Hlive1
      by (rewrite Hσ1; by apply live_after_call).
    assert (frames σ1 !! data = Some t) as Ht1
      by (by rewrite Hσ1, frames_after_call).
    destruct (plottable_run σ1 data t time axis Ht1 Hplot Hlive1)
      as (i' & smas' & flux' & acc' & Harg' & _ & Hsmas' & Hflux' & _ & _ & _
          & Hrun' & _).
    rewrite Harg in Harg'. injection Harg' as <-.
    rewrite Hsmas in Hsmas'. injection Hsmas' as <-.
    rewrite Hflux in Hflux'. injection Hflux' as <-.
    exists (plt.mkLine smas flux).
    assert (lines_of σ1 (target σ axis)
            = lines_of σ (target σ axis) ++ [plt.mkLine smas flux]) as H1
      by (rewrite Hσ1; by apply lines_after_call).
    assert (lines_of σ2 (target σ1 axis)
            = lines_of σ1 (target σ1 axis) ++ [plt.mkLine smas flux]) as H2
      by (unfold σ2; rewrite Hrun'; by apply lines_after_call).
    split_and!; [done..|]. intros a ->. cbn in H1, H2.
    by rewrite H2, H1, <-app_assoc.
  - destruct (plottable_run σ data t time axis Ht Hplot Hlive)
      as (i & smas & flux & acc & Harg & _ & Hsmas & Hflux & _ & Hacc & _
          & _ & Hrun).
    assert (τ1 = after_call σ axis i
              (painted flux_xlabel accretion_ylabel (plt.mkLine smas acc)))
      as Hτ1 by (unfold τ1; by rewrite Hrun).
    assert (live_axis τ1 axis) as Hlive1
      by (rewrite Hτ1; by apply live_after_call).
    assert (frames τ1 !! data = Some t) as Ht1
      by (by rewrite Hτ1, frames_after_call).
    destruct (plottable_run τ1 data t time axis Ht1 Hplot Hlive1)
      as (i' & smas' & flux' & acc' & Harg' & _ & Hsmas' & Hflux' & _ & Hacc'
          & _ & _ & Hrun').
    rewrite Harg in Harg'. injection Harg' as <-.
    rewrite Hsmas in Hsmas'. injection Hsmas' as <-.
    rewrite Hflux in Hflux'. injection Hflux' as <-.
    rewrite Hacc in Hacc'. injection Hacc' as <-.
    exists (plt.mkLine smas acc).
    assert (lines_of τ1 (target σ axis)
            = lines_of σ (target σ axis) ++ [plt.mkLine smas acc]) as H1
      by (rewrite Hτ1; by apply lines_after_call).
    assert (lines_of τ2 (target τ1 axis)
            = lines_of τ1 (target τ1 axis) ++ [plt.mkLine smas acc]) as H2
      by (unfold τ2; rewrite Hrun'; by apply lines_after_call).
    split_and!; [done..|]. intros a ->. cbn in H1, H2.
    by rewrite H2, H1, <-app_assoc.
Qed.

Lemma repeated_call_adds_identical_lines_witness :
  let σ1 := (plot_inwardflux 0 (dec 26 10) (Some 0) sample_world).1 in
  let σ2 := (plot_inwardflux 0 (dec 26 10) (Some 0) σ1).1 in
  frames σ2 = frames sample_world
  ∧ ∃ l, lines_of σ2 0 = lines_of sample_world 0 ++ [l; l].
Proof.
  intros σ1 σ2.
  assert (plottable sample_table) as Hplot.
  { split_and!; [discriminate|discriminate| |vm_compute; reflexivity].
    split; [reflexivity|]. repeat constructor. }
  destruct (repeated_call_adds_identical_lines sample_world 0 sample_table
              (dec 26 10) (Some 0))
    as ((_ & Hframes & _) & (l & _ & _ & Hlines) & _).
  - reflexivity.
  - exact Hplot.
  - intros a [= <-]. simpl. lia.
  - split; [exact Hframes|]. exists l. exact (Hlines 0 eq_refl).
Defined.

(** ** Decimal literals under [float] *)

Section Literals.










End Literals.

(** ** Reading a flux file *)










(** ** The unimplemented reader *)

(** C9.  For every input path [read_surfacedensity] produces no result:
    the call evaluates to [None] and leaves the store as it was. *)
Theorem read_surfacedensity_returns_nothing
    (σ : world) (filename : string) :
  read_surfacedensity filename σ = (σ, Ok None).
Proof. reflexivity. Qed.

(** ** A frame with a single row *)

(** C7 as stated fails on the transform: on a single row with two
    columns it is the difference of the two fluxes followed by zero, not
    the single value 0.0. *)
Lemma one_row_transform_is_not_zero :
  length (pd.index one_row_table) = 1
  ∧ lines_of (plot_accretion 2 (dec 7 1) None sample_world).1 1
    = [plt.mkLine [dec 1 1; dec 2 1] [dec 2 1; dec 0 1]]
  ∧ accretion_of [dec 1 1; dec 3 1] ≠ Ok [dec 0 1].
Proof.
  split_and!; [done| |].
  - vm_compute. reflexivity.
  - rewrite accretion_of_eq. discriminate.
Qed.

(** C7, amended.  On a frame with exactly one row the nearest-time
    lookup succeeds for every requested time and selects that row.  The
    transform of [plot_accretion] runs along the row, over the columns:
    its output is as long as the row, and it is the single value 0.0
    exactly when the frame has a single column. *)
Theorem single_row_lookup_and_transform
    (σ : world) (data : handle) (t : pd.DataFrame) (time : Qc)
    (axis : option handle) (x : Qc) (row : list Qc) :
  frames σ !! data = Some t →
  pd.index t = [x] →
  pd.values t = [row] →
  np.argmin (np.abs (np.sub_scalar (pd.index t) time)) = Ok 0
  ∧ stdout (plot_inwardflux data time axis σ).1 = stdout σ ++ [0]
  ∧ stdout (plot_accretion data time axis σ).1 = stdout σ ++ [0]
  ∧ ∃ d,
      accretion_of row = Ok d
      ∧ (1 ≤ length row → length d = length row)
      ∧ (d = [0%Qc] ↔ length row ≤ 1)
      ∧ (∀ smas,
           rmap float (pd.columns t) = Ok smas →
           length smas = length row → 1 ≤ length row → live_axis σ axis →
           lines_of (plot_accretion data time axis σ).1 (target σ axis)
           = lines_of σ (target σ axis) ++ [plt.mkLine smas d]).
Proof.
  intros Ht Hidx Hvals.
  assert (np.argmin (np.abs (np.sub_scalar (pd.index t) time)) = Ok 0)
    as Harg by (by rewrite Hidx).
  split_and!; [done| | |].
  - by eapply plot_inwardflux_prints.
  - by eapply plot_accretion_prints.
  - pose proof (accretion_of_eq row) as Hacc.
    eexists. split_and!; [exact Hacc| | |].
    + intros Hrow. apply (accretion_of_length _ _ Hacc).
      intros ->. simpl in Hrow. lia.
    + split.
      * intros Hd%(f_equal length). revert Hd.
        rewrite length_app, length_zip_with, length_drop, length_take.
        simpl. lia.
      * by destruct row as [|a [|b row]]; simpl; [..|lia].
    + intros smas Hsmas Hlen Hrow Hlive.
      erewrite plot_accretion_run; eauto.
      * by apply lines_after_call.
      * by rewrite Hidx.
      * by rewrite Hvals.
      * rewrite length_app, length_zip_with, length_drop, length_take.
        simpl. lia.
Qed.

Lemma single_row_lookup_and_transform_witness :
  stdout (plot_accretion 2 (dec 7 1) (Some 0) sample_world).1 = [0]
  ∧ ∃ d, accretion_of [dec 1 1; dec 3 1] = Ok d ∧ length d = 2
      ∧ (d = [0%Qc] ↔ 2 ≤ 1).
Proof.
  destruct (single_row_lookup_and_transform sample_world 2 one_row_table
              (dec 7 1) (Some 0) (dec 0 1) [dec 1 1; dec 3 1])
    as (_ & _ & Hout & d & Hacc & Hlen & Hzero & _).
  - reflexivity.
  - reflexivity.
  - reflexivity.
  - split; [exact Hout|]. exists d. split; [exact Hacc|].
    split; [apply Hlen; simpl; lia|exact Hzero].
Defined.

(** * Further properties of the module *)

(** ** What a call leaves untouched *)








(** ** The axes after a drawing *)

Lemma axes_after_call σ axis i paint :
  live_axis σ axis →
  ∃ before,
    axes (settled σ axis) !! target σ axis = Some before
    ∧ axes (after_call σ axis i paint) !! target σ axis
      = Some (paint before).
Proof.
  destruct axis as [a|]; cbn; intros Hlive.
  - destruct (lookup_lt_is_Some_2 (axes σ) a) as [ax Hax]; [by apply Hlive|].
    exists ax. by rewrite list_lookup_alter_eq, Hax.
  - exists plt.blank. by rewrite !list_lookup_middle.
Qed.

(** X2.  On a plottable frame each renderer leaves the axes it drew on
    with a logarithmic horizontal scale, the label "Distance from star
    [AU]" below and its own label on the left, whatever scale and labels
    the axes had before. *)
Theorem drawn_axes_are_labelled
    (σ : world) (data : handle) (t : pd.DataFrame) (time : Qc)
    (axis : option handle) :
  frames σ !! data = Some t → plottable t → live_axis σ axis →
  ∃ ax1 ax2,
    axes (plot_inwardflux data time axis σ).1 !! target σ axis = Some ax1
    ∧ plt.xscale ax1 = plt.Log
    ∧ plt.xlabel ax1 = "Distance from star [AU]"%string
    ∧ plt.ylabel ax1 = "Inward pebble flux [M$_{\oplus}$/yr]"%string
    ∧ axes (plot_accretion data time axis σ).1 !! target σ axis = Some ax2
    ∧ plt.xscale ax2 = plt.Log
    ∧ plt.xlabel ax2 = "Distance from star [AU]"%string
    ∧ plt.ylabel ax2 = "d(inward flux)/dlog(orbital distance)"%string.
Proof.
  intros Ht Hplot Hlive.
  destruct (plottable_run σ data t time axis Ht Hplot Hlive)
    as (i & smas & flux & acc & _ & _ & _ & _ & _ & _ & _ & Hrun1 & Hrun2).
  rewrite Hrun1, Hrun2. cbn [fst].
  destruct (axes_after_call σ axis i
              (painted flux_xlabel flux_ylabel (plt.mkLine smas flux)) Hlive)
    as (b1 & _ & H1).
  destruct (axes_after_call σ axis i
              (painted flux_xlabel accretion_ylabel (plt.mkLine smas acc))
              Hlive) as (b2 & _ & H2).
  eexists _, _.
  split_and!; [exact H1|done|done|done|exact H2|done|done|done].
Qed.

Lemma drawn_axes_are_labelled_witness :
  ∃ ax,
    axes (plot_accretion 0 (dec 26 10) (Some 0) sample_world).1 !! 0
    = Some ax
    ∧ plt.xscale ax = plt.Log
    ∧ plt.ylabel ax = "d(inward flux)/dlog(orbital distance)"%string.
Proof.
  assert (plottable sample_table) as Hplot.
  { split_and!; [discriminate|discriminate| |vm_compute; reflexivity].
    split; [reflexivity|]. repeat constructor. }
  destruct (drawn_axes_are_labelled sample_world 0 sample_table (dec 26 10)
              (Some 0)) as (ax1 & ax2 & _ & _ & _ & _ & Hax & Hscale & _ & Hy).
  - reflexivity.
  - exact Hplot.
  - intros a [= <-]. simpl. lia.
  - exists ax2. split; [exact Hax|]. split; [exact Hscale|exact Hy].
Defined.

(** ** What a failing call leaves behind *)

(** X3.  On a frame without rows a renderer fails before it prints or
    draws: with a caller's axis the store is exactly as before; with
    [axis=None] the figure and its blank axes, created first, stay in
    the store although no figure is returned. *)
Theorem empty_table_leaves_blank_figure
    (σ : world) (data : handle) (t : pd.DataFrame) (time : Qc) :
  frames σ !! data = Some t → pd.index t = [] →
  let left_behind :=
    {| files := files σ; frames := frames σ;
       figures := figures σ ++ [[length (axes σ)]];
       axes := axes σ ++ [plt.blank]; stdout := stdout σ |} in
  (∀ a, plot_inwardflux data time (Some a) σ = (σ, Raise ValueError)
        ∧ plot_accretion data time (Some a) σ = (σ, Raise ValueError))
  ∧ plot_inwardflux data time None σ = (left_behind, Raise ValueError)
  ∧ plot_accretion data time None σ = (left_behind, Raise ValueError).
Proof.
  intros Ht Hnil left_behind. split_and!.
  - intros a. split.
    + by rewrite (plot_inwardflux_empty _ _ _ _ _ Ht Hnil).
    + by rewrite (plot_accretion_empty _ _ _ _ _ Ht Hnil).
  - by rewrite (plot_inwardflux_empty _ _ _ _ _ Ht Hnil).
  - by rewrite (plot_accretion_empty _ _ _ _ _ Ht Hnil).
Qed.

Lemma empty_table_leaves_blank_figure_witness :
  plot_inwardflux 1 (dec 1 1) (Some 0) sample_world
  = (sample_world, Raise ValueError)
  ∧ figures (plot_accretion 1 (dec 1 1) None sample_world).1 = [[0]; [1]]
  ∧ axes (plot_accretion 1 (dec 1 1) None sample_world).1
    = [plt.blank; plt.blank].
Proof.
  destruct (empty_table_leaves_blank_figure sample_world 1 empty_table
              (dec 1 1)) as (Hsome & _ & Hnone); [reflexivity..|].
  split; [exact (proj1 (Hsome 0))|]. rewrite Hnone. split; reflexivity.
Defined.



(** ** More on the selection of the row *)

Section Selection.

Local Open Scope Qc_scope.










End Selection.





(** ** More on the first-difference transform *)

Section Differences.

Local Open Scope Qc_scope.



End Differences.





(** ** A frame without distance columns *)

Lemma draw_mismatch {A} (k : M A) (σ : world) (a : handle) (ax : plt.Axes)
    (x y : list Qc) :
  axes σ !! a = Some ax → length x ≠ length y →
  (semilogx a x y;; k) σ = (rescaled σ a, Raise ValueError).
Proof.
  intros Ha Hlen. unfold semilogx, update_axes, mbind, M_bind.
  rewrite Ha. cbn. rewrite decide_False by done. cbn.
  unfold rescaled. by erewrite alter_insert.
Qed.

Lemma lines_rescaled σ a b : lines_of (rescaled σ a) b = lines_of σ b.
Proof.
  unfold lines_of, rescaled. cbn.
  destruct (decide (a = b)) as [->|Hne].
  - rewrite list_lookup_alter_eq. by destruct (axes σ !! b).
  - by rewrite list_lookup_alter_ne.
Qed.

(** [plot_accretion] when the labels and the transform differ in
    length: [semilogx] sets the scale and raises. *)
Lemma plot_accretion_mismatch σ data t time axis i ti smas flux acc :
  frames σ !! data = Some t →
  np.argmin (np.abs (np.sub_scalar (pd.index t) time)) = Ok i →
  pd.index t !! i = Some ti →
  rmap float (pd.columns t) = Ok smas →
  pd.values t !! i = Some flux →
  accretion_of flux = Ok acc →
  length smas ≠ length acc →
  live_axis σ axis →
  plot_accretion data time axis σ
  = (rescaled (printed (settled σ axis) i) (target σ axis),
     Raise ValueError).
Proof.
  intros Ht Harg Hti Hsmas Hflux Hacc Hlen Hlive.
  destruct (target_live σ axis Hlive) as [ax Hax].
  assert (frames (printed (settled σ axis) i) !! data = Some t) as Ht'
    by (by cbn; rewrite frames_settled).
  rewrite accretion_of_eq in Hacc. injection Hacc as <-.
  unfold plot_accretion.
  run_selection Ht Harg. run_getitem Hti. run_reads Ht' Hsmas Hflux.
  erewrite bind_run; cycle 1.
  { erewrite bind_run; [reflexivity|].
    unfold np.sub, np.slice_from1, np.slice_to_last.
    rewrite decide_True; [reflexivity|].
    rewrite length_drop, length_take. lia. }
  by erewrite draw_mismatch.
Qed.

(** X9.  On a frame that has times but no distance column
    [plot_inwardflux] draws an empty line and reaches its return
    statement, whereas [plot_accretion] raises ValueError and draws
    nothing: its transform appends one zero to the empty row, so the x
    and y data differ in length. *)
Theorem no_columns_breaks_accretion_only
    (σ : world) (data : handle) (t : pd.DataFrame) (time : Qc)
    (axis : option handle) :
  frames σ !! data = Some t →
  pd.index t ≠ [] → pd.columns t = [] → pd.rectangular t →
  live_axis σ axis →
  (plot_inwardflux data time axis σ).2 = returned σ axis
  ∧ lines_of (plot_inwardflux data time axis σ).1 (target σ axis)
    = lines_of σ (target σ axis) ++ [plt.mkLine [] []]
  ∧ (plot_accretion data time axis σ).2 = Raise ValueError
  ∧ ∀ b, lines_of (plot_accretion data time axis σ).1 b = lines_of σ b.
Proof.
  intros Ht Hrows Hcols [Hlen Hrect] Hlive.
  destruct (closest_time_index_spec _ time Hrows)
    as (i & Harg & ti & Hti & _).
  destruct (lookup_lt_is_Some_2 (pd.values t) i) as [flux Hflux].
  { rewrite Hlen. by eapply lookup_lt_Some. }
  assert (flux = []) as ->.
  { apply length_zero_iff_nil.
    rewrite (Forall_lookup_1 _ _ _ _ Hrect Hflux). by rewrite Hcols. }
  assert (rmap float (pd.columns t) = Ok []) as Hsmas by by rewrite Hcols.
  erewrite plot_inwardflux_run by eauto.
  erewrite plot_accretion_mismatch by (eauto using accretion_of_eq).
  cbn [fst snd]. split_and!; [done| |done|].
  - by apply lines_after_call.
  - intros b. rewrite lines_rescaled.
    change (lines_of (printed ?w i) b) with (lines_of w b).
    apply lines_settled.
Qed.

Lemma no_columns_breaks_accretion_only_witness :
  (plot_inwardflux 2 (dec 1 1) None second_world).2 = Ok 1
  ∧ lines_of (plot_inwardflux 2 (dec 1 1) None second_world).1 1
    = [plt.mkLine [] []]
  ∧ (plot_accretion 2 (dec 1 1) None second_world).2 = Raise ValueError.
Proof.
  destruct (no_columns_breaks_accretion_only second_world 2 bare_table
              (dec 1 1) None) as (Hret & Hlines & Hraise & _).
  - reflexivity.
  - discriminate.
  - reflexivity.
  - split; [reflexivity|]. repeat constructor.
  - intros a [=].
  - split; [exact Hret|]. split; [exact Hlines|exact Hraise].
Defined.

(** ** One renderer after the other on the same axes *)

Lemma axes_after_call_some σ a i paint ax :
  axes σ !! a = Some ax →
  axes (after_call σ (Some a) i paint) !! a = Some (paint ax).
Proof. intros Hax. cbn. by rewrite list_lookup_alter_eq, Hax. Qed.

(** X10.  When the two renderers are called one after the other on the
    same caller's axis, both lines are on the axes, in the order of the
    calls, and the label on the left is the one of the renderer called
    last. *)
Theorem second_renderer_relabels_the_axis
    (σ : world) (data : handle) (t : pd.DataFrame) (time : Qc)
    (a : handle) :
  frames σ !! data = Some t → plottable t → a < length (axes σ) →
  let σ1 := (plot_inwardflux data time (Some a) σ).1 in
  let σ2 := (plot_accretion data time (Some a) σ1).1 in
  let τ1 := (plot_accretion data time (Some a) σ).1 in
  let τ2 := (plot_inwardflux data time (Some a) τ1).1 in
  ∃ l1 l2 ax2 bx2,
    lines_of σ1 a = lines_of σ a ++ [l1]
    ∧ lines_of τ1 a = lines_of σ a ++ [l2]
    ∧ lines_of σ2 a = lines_of σ a ++ [l1; l2]
    ∧ axes σ2 !! a = Some ax2
    ∧ plt.ylabel ax2 = "d(inward flux)/dlog(orbital distance)"%string
    ∧ lines_of τ2 a = lines_of σ a ++ [l2; l1]
    ∧ axes τ2 !! a = Some bx2
    ∧ plt.ylabel bx2 = "Inward pebble flux [M$_{\oplus}$/yr]"%string.
Proof.
  intros Ht Hplot Ha σ1 σ2 τ1 τ2.
  assert (live_axis σ (Some a)) as Hlive by (by intros ? [= <-]).
  destruct (plottable_run σ data t time (Some a) Ht Hplot Hlive)
    as (i & smas & flux & acc & Harg & _ & Hsmas & Hflux & _ & Hacc & _
        & Hrun1 & Hrun2).
  set (paint1 := painted flux_xlabel flux_ylabel (plt.mkLine smas flux)).
  set (paint2 := painted flux_xlabel accretion_ylabel (plt.mkLine smas acc)).
  assert (σ1 = after_call σ (Some a) i paint1) as Hσ1
    by (unfold σ1; by rewrite Hrun1).
  assert (τ1 = after_call σ (Some a) i paint2) as Hτ1
    by (unfold τ1; by rewrite Hrun2).
  assert (live_axis σ1 (Some a)) as Hlive1
    by (rewrite Hσ1; by apply live_after_call).
  assert (live_axis τ1 (Some a)) as Hlive2
    by (rewrite Hτ1; by apply live_after_call).
  assert (frames σ1 !! data = Some t) as Ht1
    by (by rewrite Hσ1, frames_after_call).
  assert (frames τ1 !! data = Some t) as Ht2
    by (by rewrite Hτ1, frames_after_call).
  destruct (plottable_run σ1 data t time (Some a) Ht1 Hplot Hlive1)
    as (i1 & smas1 & flux1 & acc1 & Harg1 & _ & Hsmas1 & Hflux1 & _ & Hacc1
        & _ & _ & Hrun1').
  destruct (plottable_run τ1 data t time (Some a) Ht2 Hplot Hlive2)
    as (i2 & smas2 & flux2 & acc2 & Harg2 & _ & Hsmas2 & Hflux2 & _ & _
        & _ & Hrun2' & _).
  rewrite Harg in Harg1, Harg2. injection Harg1 as <-. injection Harg2 as <-.
  rewrite Hsmas in Hsmas1, Hsmas2.
  injection Hsmas1 as <-. injection Hsmas2 as <-.
  rewrite Hflux in Hflux1, Hflux2.
  injection Hflux1 as <-. injection Hflux2 as <-.
  rewrite Hacc in Hacc1. injection Hacc1 as <-.
  fold paint2 in Hrun1'. fold paint1 in Hrun2'.
  assert (lines_of σ1 a = lines_of σ a ++ [plt.mkLine smas flux]) as H1
    by (rewrite Hσ1; by apply (lines_after_call σ (Some a))).
  assert (lines_of τ1 a = lines_of σ a ++ [plt.mkLine smas acc]) as H2
    by (rewrite Hτ1; by apply (lines_after_call σ (Some a))).
  destruct (lookup_lt_is_Some_2 (axes σ1) a) as [ax1 Hax1];
    [by apply Hlive1|].
  destruct (lookup_lt_is_Some_2 (axes τ1) a) as [bx1 Hbx1];
    [by apply Hlive2|].
  exists (plt.mkLine smas flux), (plt.mkLine smas acc),
    (paint2 ax1), (paint1 bx1).
  unfold σ2, τ2. rewrite Hrun1', Hrun2'. cbn [fst].
  split_and!; [done|done| | |done| | |done].
  - pose proof (lines_after_call σ1 (Some a) i flux_xlabel accretion_ylabel
                  (plt.mkLine smas acc) Hlive1) as H12.
    cbn [target] in H12. unfold paint2. by rewrite H12, H1, <-app_assoc.
  - by apply axes_after_call_some.
  - pose proof (lines_after_call τ1 (Some a) i flux_xlabel flux_ylabel
                  (plt.mkLine smas flux) Hlive2) as H21.
    cbn [target] in H21. unfold paint1. by rewrite H21, H2, <-app_assoc.
  - by apply axes_after_call_some.
Qed.

Lemma second_renderer_relabels_the_axis_witness :
  let σ1 := (plot_inwardflux 0 (dec 26 10) (Some 0) sample_world).1 in
  let σ2 := (plot_accretion 0 (dec 26 10) (Some 0) σ1).1 in
  ∃ l1 l2 ax2,
    lines_of σ2 0 = [l1; l2]
    ∧ axes σ2 !! 0 = Some ax2
    ∧ plt.ylabel ax2 = "d(inward flux)/dlog(orbital distance)"%string.
Proof.
  intros σ1 σ2.
  assert (plottable sample_table) as Hplot.
  { split_and!; [discriminate|discriminate| |vm_compute; reflexivity].
    split; [reflexivity|]. repeat constructor. }
  destruct (second_renderer_relabels_the_axis sample_world 0 sample_table
              (dec 26 10) 0)
    as (l1 & l2 & ax2 & _ & _ & _ & Hlines & Hax & Hy & _).
  - reflexivity.
  - exact Hplot.
  - simpl. lia.
  - exists l1, l2, ax2. split; [exact Hlines|]. split; [exact Hax|exact Hy].
Defined.

(** ** Reading, then plotting *)




(** ** The exceptions that can leave a renderer *)








(** ** A file without data lines *)


